(** * PDF-QNA-BOT: a shallow embedding of the backend and its properties

    The development follows the layout of [backend/app]:
    - [py]            the Python string and exception primitives the code uses;
    - [models]        the [Document] row and the [documents] table;
    - [pdf_processor] [PDFProcessor.extract_text];
    - [qa_engine]     [QAEngine.get_answer] and [QAEngine.generate_questions];
    - [main]          the FastAPI endpoints.

    Characters are the code points 0..255 ([ascii]); a Python [str] is a
    [string].  Exceptions are values: a computation of type [result A] either
    raises ([inl e]) or returns ([inr a]), and [try_except] is the
    [try: ... except: ...] statement.  Logging is not modelled. *)

From Stdlib Require Import ZArith NArith Ascii.
From stdpp Require Import gmap strings list.

Local Open Scope Z_scope.

(* ===================================================================== *)
(** * Python primitives *)
(* ===================================================================== *)

Module py.

(** ** Strings *)

Definition LF : ascii := "010"%char.
Definition newline : string := String LF EmptyString.
Definition dquote : string := String "034"%char EmptyString.

(** [len(s)] *)
Definition len (s : string) : Z := Z.of_nat (String.length s).

(** [c.isspace()] on the code points below 256: TAB..CR, FS..US, SPACE,
    NEL and NBSP. *)
Definition isspace (c : ascii) : bool :=
  let n := N_of_ascii c in
  ((9 <=? n) && (n <=? 13) || (28 <=? n) && (n <=? 32)
   || (n =? 133) || (n =? 160))%N.

(** [s.lstrip()] *)
Fixpoint lstrip (s : string) : string :=
  match s with
  | EmptyString => EmptyString
  | String c r => if isspace c then lstrip r else s
  end.

(** [s.rstrip()]: a character stays when it is not white space or when
    something stays to its right. *)
Fixpoint rstrip (s : string) : string :=
  match s with
  | EmptyString => EmptyString
  | String c r =>
      match rstrip r with
      | EmptyString => if isspace c then EmptyString else String c EmptyString
      | r' => String c r'
      end
  end.

(** [s.strip()] *)
Definition strip (s : string) : string := rstrip (lstrip s).

(** Truth value of a string: [bool(s)]. *)
Definition truthy (s : string) : bool :=
  match s with EmptyString => false | String _ _ => true end.

(** [s.split('\n')]: never empty, [''.split('\n') == ['']]. *)
Fixpoint split_lines (s : string) : list string :=
  match s with
  | EmptyString => [EmptyString]
  | String c r =>
      if Ascii.eqb c LF then EmptyString :: split_lines r
      else match split_lines r with
           | l :: ls => String c l :: ls
           | [] => [String c EmptyString]
           end
  end.

(** [sep.join(l)] *)
Fixpoint join (sep : string) (l : list string) : string :=
  match l with
  | [] => EmptyString
  | [x] => x
  | x :: rest => x +:+ sep +:+ join sep rest
  end.

(** [s.endswith(suffix)] *)
Fixpoint endswith (s suffix : string) : bool :=
  String.eqb s suffix
  || match s with
     | EmptyString => false
     | String _ r => endswith r suffix
     end.

(** ** Naive local date-times, as [datetime.now()] returns them *)

Record datetime := mk_datetime {
  year : N; month : N; day : N;
  hour : N; minute : N; second : N; microsecond : N
}.

Definition digit (n : N) : ascii := ascii_of_N (48 + n mod 10).
Definition pad2 (n : N) : string :=
  String (digit (n / 10)) (String (digit n) EmptyString).
Definition pad4 (n : N) : string := pad2 (n / 100) +:+ pad2 n.

(** [d.strftime("%Y%m%d_%H%M%S")] for a four-digit year. *)
Definition strftime (d : datetime) : string :=
  pad4 (year d) +:+ pad2 (month d) +:+ pad2 (day d) +:+ "_"
  +:+ pad2 (hour d) +:+ pad2 (minute d) +:+ pad2 (second d).

Definition fields (d : datetime) : list N :=
  [year d; month d; day d; hour d; minute d; second d; microsecond d].

Fixpoint lex_leb (a b : list N) : bool :=
  match a, b with
  | [], _ => true
  | _ :: _, [] => false
  | x :: a', y :: b' => (x <? y)%N || (x =? y)%N && lex_leb a' b'
  end.

(** [d1 <= d2] on naive date-times: field by field. *)
Definition datetime_leb (d1 d2 : datetime) : bool :=
  lex_leb (fields d1) (fields d2).

(** ** Exceptions *)

(** The exception classes the library code raises; each carries its
    message, which is what [str(e)] returns.  Errors raised by PyPDF2 and
    by the Gemini client are only ever observed through [str(e)] and are
    represented by [Exception]. *)
Inductive exn : Type :=
| FileNotFoundError (msg : string)
| PermissionError (msg : string)
| Exception (msg : string).

Definition str (e : exn) : string :=
  match e with
  | FileNotFoundError m | PermissionError m | Exception m => m
  end.

(** A computation that raises ([inl]) or returns ([inr]). *)
Definition result (E A : Type) : Type := E + A.

Definition raise {E A} (e : E) : result E A := inl e.

(** Sequencing, with stdpp's [x ← m; k] notation: the first exception
    raised aborts what follows. *)
#[global] Instance result_ret {E} : MRet (result E) := λ A a, inr a.
#[global] Instance result_bind {E} : MBind (result E) := λ A B k m,
  match m with
  | inl e => inl e
  | inr a => k a
  end.

(** [try: body  except ...: handler] *)
Definition try_except {E A} (body : result E A) (handler : E -> result E A)
  : result E A :=
  match body with
  | inl e => handler e
  | inr a => inr a
  end.

End py.

(* ===================================================================== *)
(** * models.py and the database session *)
(* ===================================================================== *)

Module models.

(** A row of the [documents] table. *)
Record Document := mk_Document {
  id : Z;
  filename : string;
  original_filename : string;
  upload_date : py.datetime;
  file_path : string;
  text_content : string
}.

End models.

Module database.

(** The [documents] table as the session sees it: the rows in the order
    the database yields them for a query without [ORDER BY], and the next
    value of the primary-key sequence. *)
Record session := mk_session {
  documents : list models.Document;
  next_id : Z
}.

Definition empty : session := mk_session [] 1.

(** [db.query(Document).filter(Document.id == i).first()] *)
Definition query_first (db : session) (i : Z) : option models.Document :=
  List.find (λ d, models.id d =? i) (documents db).

(** [db.query(Document).all()] *)
Definition query_all (db : session) : list models.Document := documents db.

(** [db.add(doc); db.commit(); db.refresh(doc)]: the row receives the next
    primary key.  [commit_error] is the message of the error the database
    raises on commit, if it does (lost connection, violated constraint). *)
Definition add_commit (commit_error : option string)
    (filename original_filename : string) (upload_date : py.datetime)
    (file_path text_content : string) (db : session)
  : py.result py.exn (models.Document * session) :=
  match commit_error with
  | Some msg => py.raise (py.Exception msg)
  | None =>
      let doc := models.mk_Document (next_id db) filename original_filename
                   upload_date file_path text_content in
      mret (doc, mk_session (documents db ++ [doc]) (next_id db + 1))
  end.

(** [DELETE FROM documents WHERE id = :id], which is also what
    [db.delete(document)] emits on commit. *)
Definition delete_where_id (i : Z) (db : session) : session :=
  mk_session (List.filter (λ d, negb (models.id d =? i)) (documents db))
             (next_id db).

Definition delete_commit (commit_error : option string)
    (document : models.Document) (db : session)
  : py.result py.exn session :=
  match commit_error with
  | Some msg => py.raise (py.Exception msg)
  | None => mret (delete_where_id (models.id document) db)
  end.

End database.

(* ===================================================================== *)
(** * pdf_processor.py *)
(* ===================================================================== *)

Module pdf_processor.

(** What [page.extract_text()] does on a page: return text, return
    [None], or raise. *)
Inductive page : Type :=
| PageText (t : string)
| PageNone
| PageRaises (msg : string).

(** What [PdfReader(file_path)] makes of the bytes of a file. *)
Inductive pdf : Type :=
| Malformed (msg : string)
| Pages (pages : list page).

Record file := mk_file {
  readable : bool;          (* os.access(path, os.R_OK) *)
  contents : pdf
}.

Abbreviation filesystem := (gmap string file).

Definition extract_page (p : page) : py.result py.exn (option string) :=
  match p with
  | PageText t => mret (Some t)
  | PageNone => mret None
  | PageRaises msg => py.raise (py.Exception msg)
  end.

Definition PdfReader (f : file) : py.result py.exn (list page) :=
  match contents f with
  | Malformed msg => py.raise (py.Exception msg)
  | Pages pages => mret pages
  end.

(** The body of the [for] loop, with its own [try]/[except]. *)
Definition page_step (text : string) (p : page) : py.result py.exn string :=
  py.try_except
    (page_text ← extract_page p;
     mret (text +:+ default EmptyString page_text +:+ py.newline))
    (λ page_error, mret text).

Fixpoint for_pages (pages : list page) (text : string)
  : py.result py.exn string :=
  match pages with
  | [] => mret text
  | p :: rest => text' ← page_step text p; for_pages rest text'
  end.

Definition extract_text (fs : filesystem) (file_path : string)
  : py.result py.exn string :=
  py.try_except
    (match fs !! file_path with
     | None =>
         py.raise (py.FileNotFoundError ("PDF file not found at " +:+ file_path))
     | Some f =>
         if negb (readable f) then
           py.raise (py.PermissionError
                       ("No read permission for PDF file at " +:+ file_path))
         else
           pages ← PdfReader f;
           if Z.of_nat (length pages) =? 0 then mret EmptyString
           else
             text ← for_pages pages EmptyString;
             mret (py.strip text)
     end)
    (λ e, match e with
          | py.FileNotFoundError _ => py.raise e
          | _ => py.raise (py.Exception ("Error processing PDF: " +:+ py.str e))
          end).

End pdf_processor.

(* ===================================================================== *)
(** * qa_engine.py *)
(* ===================================================================== *)

Module qa_engine.
Section QAEngine.

(** langchain's splitter class and the Gemini client are library code, and
    the engine is parameterised by them:
    [RecursiveCharacterTextSplitter chunk_size chunk_overlap length_function]
    is the [split_text] method of the splitter so configured, and
    [GenerativeModel name prompt] is [generate_content(prompt).text] of the
    model of that name, or the exception the call raises. *)
Variable RecursiveCharacterTextSplitter :
  Z → Z → (string → Z) → string → list string.
Variable GenerativeModel : string → string → py.result py.exn string.

(** [QAEngine.__init__] *)
Definition text_splitter : string → list string :=
  RecursiveCharacterTextSplitter 1000 200 py.len.

Definition model : string → py.result py.exn string :=
  GenerativeModel "gemini-1.5-flash".

Definition indent : string := "            ".

Definition answer_prompt (text question : string) : string :=
  "Based on the following text, please answer the question. " +:+ py.newline
  +:+ indent +:+ "If the answer is not in the text, say " +:+ py.dquote
  +:+ "I cannot find the answer in the provided text." +:+ py.dquote
  +:+ py.newline
  +:+ py.newline
  +:+ indent +:+ "Text:" +:+ py.newline
  +:+ indent +:+ text +:+ py.newline
  +:+ py.newline
  +:+ indent +:+ "Question: " +:+ question +:+ py.newline
  +:+ py.newline
  +:+ indent +:+ "Please provide a clear and concise answer:".

Definition questions_prompt (text : string) : string :=
  "Analyze the following document text and generate 5-7 well-formatted, relevant questions that could be asked about this content."
  +:+ py.newline
  +:+ indent +:+ py.newline
  +:+ indent +:+ "Focus on creating questions that:" +:+ py.newline
  +:+ indent +:+ "1. Cover key information in the document" +:+ py.newline
  +:+ indent +:+ "2. Are clear and specific" +:+ py.newline
  +:+ indent +:+ "3. Range from simple factual questions to more complex analytical questions"
  +:+ py.newline
  +:+ indent +:+ "4. Would be useful for someone trying to understand the document"
  +:+ py.newline
  +:+ indent +:+ py.newline
  +:+ indent +:+ "Document Text:" +:+ py.newline
  +:+ indent +:+ text +:+ py.newline
  +:+ indent +:+ py.newline
  +:+ indent +:+ "Output only the list of questions, one per line, with no additional text or numbering.".

Definition get_answer (text question : string) : py.result py.exn string :=
  py.try_except
    (let text :=
       if 30000 <? py.len text then
         let chunks := text_splitter text in
         py.join py.newline (take 5 chunks)
       else text in
     let prompt := answer_prompt text question in
     response_text ← model prompt;
     let answer := py.strip response_text in
     mret answer)
    (λ e, py.raise (py.Exception ("Error getting answer: " +:+ py.str e))).

Definition generate_questions (text : string)
  : py.result py.exn (list string) :=
  py.try_except
    (let text :=
       if 30000 <? py.len text then
         let chunks := text_splitter text in
         py.join py.newline (take 5 chunks)
       else text in
     let prompt := questions_prompt text in
     response_text ← model prompt;
     let questions_text := py.strip response_text in
     let questions_list :=
       List.map py.strip
         (List.filter (λ q, py.truthy (py.strip q))
            (py.split_lines questions_text)) in
     mret (take 7 questions_list))
    (λ e, py.raise (py.Exception ("Error generating questions: " +:+ py.str e))).

End QAEngine.
End qa_engine.

(* ===================================================================== *)
(** * old.py *)
(* ===================================================================== *)

Module old.
Section QAEngine.

(** The earlier engine, over the same two library classes. *)
Variable RecursiveCharacterTextSplitter :
  Z → Z → (string → Z) → string → list string.
Variable GenerativeModel : string → string → py.result py.exn string.

(** [QAEngine.__init__] *)
Definition text_splitter : string → list string :=
  RecursiveCharacterTextSplitter 1000 200 py.len.

Definition model : string → py.result py.exn string :=
  GenerativeModel "gemini-pro".

Definition indent : string := "            ".

Definition answer_prompt (text question : string) : string :=
  "Based on the following text, please answer the question. " +:+ py.newline
  +:+ indent +:+ "If the answer is not in the text, say " +:+ py.dquote
  +:+ "I cannot find the answer in the provided text." +:+ py.dquote
  +:+ py.newline
  +:+ py.newline
  +:+ indent +:+ "Text:" +:+ py.newline
  +:+ indent +:+ text +:+ py.newline
  +:+ py.newline
  +:+ indent +:+ "Question: " +:+ question +:+ py.newline
  +:+ py.newline
  +:+ indent +:+ "Please provide a clear and concise answer:".

Definition get_answer (text question : string) : py.result py.exn string :=
  py.try_except
    (let text :=
       if 30000 <? py.len text then
         let chunks := text_splitter text in
         py.join py.newline (take 3 chunks)
       else text in
     let prompt := answer_prompt text question in
     response_text ← model prompt;
     let answer := py.strip response_text in
     mret answer)
    (λ e, py.raise (py.Exception ("Error getting answer: " +:+ py.str e))).

End QAEngine.
End old.

(* ===================================================================== *)
(** * schemas.py *)
(* ===================================================================== *)

Module schemas.

Record Question := mk_Question { document_id : Z; question : string }.
Record Answer := mk_Answer { answer : string }.
Record SuggestedQuestions := mk_SuggestedQuestions { questions : list string }.

Module DocumentCreateResponse.
Record t := mk { message : string; document_id : Z }.
End DocumentCreateResponse.

Module DocumentDeleteResponse.
Record t := mk { message : string; id : Z }.
End DocumentDeleteResponse.

End schemas.

(* ===================================================================== *)
(** * main.py *)
(* ===================================================================== *)

Module main.

(** What an endpoint can raise: FastAPI's [HTTPException], which the
    framework turns into a response with that status, or any other
    exception. *)
Inductive raised : Type :=
| HTTPException (status_code : Z) (detail : string)
| Error (e : py.exn).

Definition lift {A} (r : py.result py.exn A) : py.result raised A :=
  match r with
  | inl e => inl (Error e)
  | inr a => inr a
  end.

(** The status of the response the client receives. *)
Definition status {A} (r : py.result raised A) : Z :=
  match r with
  | inr _ => 200
  | inl (HTTPException s _) => s
  | inl (Error _) => 500
  end.

(** The upload directory and the database. *)
Record state := mk_state {
  fs : gmap string pdf_processor.file;
  db : database.session
}.

(** How writing the uploaded bytes ends: the file is written, or
    [open]/[write] raises and leaves [partial] at the path ([None]: nothing
    was created or changed). *)
Inductive write_outcome : Type :=
| Written
| WriteFails (msg : string) (partial : option pdf_processor.file).

(** The faults of the environment during one request. *)
Record env := mk_env {
  write : write_outcome;
  unlink_error : option string;   (* [file_path.unlink()] raises *)
  commit_error : option string    (* [db.commit()] raises *)
}.

Definition no_fault : env := mk_env Written None None.

Section endpoints.

(** [str(e)] of an [HTTPException] is Starlette's business. *)
Variable http_exception_str : Z → string → string.
Variable RecursiveCharacterTextSplitter :
  Z → Z → (string → Z) → string → list string.
Variable GenerativeModel : string → string → py.result py.exn string.

Definition str (e : raised) : string :=
  match e with
  | HTTPException s d => http_exception_str s d
  | Error e => py.str e
  end.

Definition UPLOAD_DIR : string := "uploads".

(** [POST /upload/].  [now_name] and [now_date] are the two readings of
    [datetime.now()]; [file_body] is what the uploaded bytes parse to.
    [UPLOAD_DIR / filename] is written for a file name that [pathlib]
    leaves as it is (no empty or dot segments). *)
Definition upload_pdf (e : env) (now_name now_date : py.datetime)
    (file_filename : string) (file_body : pdf_processor.pdf) (st : state)
  : py.result raised schemas.DocumentCreateResponse.t * state :=
  if negb (py.endswith file_filename ".pdf") then
    (py.raise (HTTPException 400 "Only PDF files are allowed"), st)
  else
    let timestamp := py.strftime now_name in
    let filename := timestamp +:+ "_" +:+ file_filename in
    let file_path := UPLOAD_DIR +:+ "/" +:+ filename in
    match write e with
    | WriteFails msg partial =>
        (py.raise (HTTPException 500 ("Error saving file: " +:+ msg)),
         mk_state (match partial with
                   | Some f => <[file_path := f]> (fs st)
                   | None => fs st
                   end) (db st))
    | Written =>
        let mode := match fs st !! file_path with
                    | Some old => pdf_processor.readable old
                    | None => true
                    end in
        let fs1 := <[file_path := pdf_processor.mk_file mode file_body]> (fs st) in
        match
          text_content ← pdf_processor.extract_text fs1 file_path;
          database.add_commit (commit_error e) filename file_filename
            now_date file_path text_content (db st)
        with
        | inr (db_document, db1) =>
            (mret (schemas.DocumentCreateResponse.mk
                     "File uploaded successfully" (models.id db_document)),
             mk_state fs1 db1)
        | inl err =>
            (* db.rollback() *)
            (py.raise (HTTPException 500 (py.str err)), mk_state fs1 (db st))
        end
    end.

(** [DELETE /documents/{document_id}] *)
Definition delete_document (e : env) (document_id : Z) (st : state)
  : py.result raised schemas.DocumentDeleteResponse.t * state :=
  let body : py.result raised schemas.DocumentDeleteResponse.t * state :=
    match database.query_first (db st) document_id with
    | None => (py.raise (HTTPException 404 "Document not found"), st)
    | Some document =>
        (* Delete the actual file; continue even if file deletion fails *)
        let fs1 :=
          match fs st !! models.file_path document with
          | Some _ =>
              match unlink_error e with
              | None => delete (models.file_path document) (fs st)
              | Some file_error => fs st
              end
          | None => fs st
          end in
        (* Delete from database *)
        match database.delete_commit (commit_error e) document (db st) with
        | inr db1 =>
            let check := database.query_first db1 document_id in
            let db2 := match check with
                       | Some _ => database.delete_where_id document_id db1
                       | None => db1
                       end in
            (mret (schemas.DocumentDeleteResponse.mk
                     "Document deleted successfully" document_id),
             mk_state fs1 db2)
        | inl db_error =>
            (* db.rollback() *)
            (py.raise (HTTPException 500
                         ("Database error: " +:+ py.str db_error)),
             mk_state fs1 (db st))
        end
    end in
  (py.try_except body.1
     (λ err, match err with
             | HTTPException _ _ => py.raise err
             | Error e' => py.raise (HTTPException 500 (py.str e'))
             end),
   body.2).

(** [POST /ask/] *)
Definition ask_question (question : schemas.Question) (st : state)
  : py.result raised schemas.Answer :=
  py.try_except
    (match database.query_first (db st) (schemas.document_id question) with
     | None => py.raise (HTTPException 404 "Document not found")
     | Some document =>
         answer ← lift (qa_engine.get_answer
                          RecursiveCharacterTextSplitter GenerativeModel
                          (models.text_content document)
                          (schemas.question question));
         mret (schemas.mk_Answer answer)
     end)
    (λ err, py.raise (HTTPException 500 (str err))).

(** [GET /documents/] *)
Definition list_documents (st : state)
  : py.result raised (list models.Document) :=
  let documents := database.query_all (db st) in
  mret documents.

(** [GET /documents/{doc_id}] *)
Definition get_document (doc_id : Z) (st : state)
  : py.result raised models.Document :=
  match database.query_first (db st) doc_id with
  | None => py.raise (HTTPException 404 "Document not found")
  | Some document => mret document
  end.

(** [GET /documents/{document_id}/suggested-questions] *)
Definition get_suggested_questions (document_id : Z) (st : state)
  : py.result raised schemas.SuggestedQuestions :=
  match database.query_first (db st) document_id with
  | None => py.raise (HTTPException 404 "Document not found")
  | Some document =>
      py.try_except
        (suggested_questions ←
           lift (qa_engine.generate_questions
                   RecursiveCharacterTextSplitter GenerativeModel
                   (models.text_content document));
         mret (schemas.mk_SuggestedQuestions suggested_questions))
        (λ err, py.raise (HTTPException 500
                            ("Error generating questions: " +:+ str err)))
  end.

End endpoints.
End main.

(* ===================================================================== *)
(** * fix_db.py *)
(* ===================================================================== *)

Module fix_db.

(** [test_document_insertion]: insert a test row, read it back, delete it.
    [insert_error] and [delete_error] are the errors of the two commits, if
    they raise.  The [upload_date] literal ["2023-01-01 00:00:00"] is the
    timestamp the database reads it as.  The second component is the table
    the function leaves behind. *)
Definition test_document_insertion (insert_error delete_error : option string)
    (db : database.session) : bool * database.session :=
  match
    database.add_commit insert_error "test_document.pdf" "test.pdf"
      (py.mk_datetime 2023 1 1 0 0 0 0) "/tmp/test.pdf"
      "This is a test document content." db
  with
  | inr (test_doc, db1) =>
      match database.query_first db1 (models.id test_doc) with
      | Some retrieved_doc =>
          match database.delete_commit delete_error retrieved_doc db1 with
          | inr db2 => (true, db2)
          | inl e =>
              (* db.rollback(): the insert is already committed *)
              (false, db1)
          end
      | None => (false, db1)
      end
  | inl e =>
      (* db.rollback() *)
      (false, db)
  end.

End fix_db.

(* ===================================================================== *)
(** * Notions used to state the properties *)
(* ===================================================================== *)

Module notions.
Import py pdf_processor qa_engine main.

(** The list comprehension of [generate_questions]:
    [[q.strip() for q in lines if q.strip()]]. *)
Definition clean (lines : list string) : list string :=
  List.map strip (List.filter (λ q, truthy (strip q)) lines).

(** A page is extracted when [page.extract_text()] returns; its text is
    what the loop then appends (the empty string for [None]). *)
Definition succeeded (p : page) : bool :=
  match extract_page p with inr _ => true | inl _ => false end.

Definition page_text (p : page) : string :=
  match extract_page p with
  | inr t => default EmptyString t
  | inl _ => EmptyString
  end.

Definition extracted_pages (pages : list page) : list page :=
  List.filter succeeded pages.

Definition page_texts (pages : list page) : list string :=
  List.map page_text (extracted_pages pages).

(** Every text followed by a newline, as the loop builds it. *)
Fixpoint lines (texts : list string) : string :=
  match texts with
  | [] => EmptyString
  | t :: rest => t +:+ newline +:+ lines rest
  end.

(** A stand-in for a long document: [n] times the letter a. *)
Definition letters (n : N) : string := N.iter n (String "a") EmptyString.

(** The first five chunks, joined with a newline. *)
Definition first_chunks (split_text : string → list string)
    (text : string) : string :=
  join newline (take 5 (split_text text)).

(** The text both prompts are built from. *)
Definition working_text (split_text : string → list string)
    (text : string) : string :=
  if 30000 <? len text then first_chunks split_text text else text.

(** What the engine does once the text of the prompt is settled: build
    the prompt, call the model once, post-process the response. *)
Definition answer_from (generate_content : string → result exn string)
    (text question : string) : result exn string :=
  try_except
    (response_text ← generate_content (answer_prompt text question);
     mret (strip response_text))
    (λ e, raise (Exception ("Error getting answer: " +:+ py.str e))).

Definition questions_from (generate_content : string → result exn string)
    (text : string) : result exn (list string) :=
  try_except
    (response_text ← generate_content (questions_prompt text);
     mret (take 7 (clean (split_lines (strip response_text)))))
    (λ e, raise (Exception ("Error generating questions: " +:+ py.str e))).

(** A response of ten lines: the first seven come back, stripped. *)
Definition ten_lines : string :=
  "Q1?" +:+ newline +:+ "  Q2?" +:+ newline +:+ "Q3?  " +:+ newline
  +:+ "Q4?" +:+ newline +:+ "Q5?" +:+ newline +:+ "Q6?" +:+ newline
  +:+ "Q7?" +:+ newline +:+ "Q8?" +:+ newline +:+ "Q9?" +:+ newline
  +:+ "Q10?".

(** Primary keys are not repeated and lie below the next value of the
    sequence. *)
Definition well_keyed (db : database.session) : Prop :=
  Forall (λ d, models.id d < database.next_id db) (database.documents db)
  ∧ NoDup (models.id <$> database.documents db).

(** The states the service reaches from an empty upload directory and an
    empty table. *)
Inductive reachable : state → Prop :=
| reachable_start : reachable (mk_state ∅ database.empty)
| reachable_upload e now_name now_date file_filename file_body st :
    reachable st →
    reachable (upload_pdf e now_name now_date file_filename file_body st).2
| reachable_delete e document_id st :
    reachable st →
    reachable (delete_document e document_id st).2.

(** Consecutive documents are in the order [before]. *)
Fixpoint ordered (before : datetime → datetime → bool)
    (docs : list models.Document) : bool :=
  match docs with
  | d1 :: (d2 :: _) as rest =>
      before (models.upload_date d1) (models.upload_date d2)
      && ordered before rest
  | _ => true
  end.

(** Sorted by upload time, oldest first or newest first. *)
Definition sorted_by_upload_time (docs : list models.Document) : bool :=
  ordered datetime_leb docs || ordered (λ a b, datetime_leb b a) docs.

(** Three uploads on the night the clocks go back: 01:59:30, then
    01:00:10 and 01:30:00 of the repeated hour. *)
Definition night : state :=
  let hello := pdf_processor.Pages [pdf_processor.PageText "Hello"] in
  let t1 := mk_datetime 2024 11 3 1 59 30 0 in
  let t2 := mk_datetime 2024 11 3 1 0 10 0 in
  let t3 := mk_datetime 2024 11 3 1 30 0 0 in
  let s0 := mk_state ∅ database.empty in
  let s1 := (upload_pdf no_fault t1 t1 "a.pdf" hello s0).2 in
  let s2 := (upload_pdf no_fault t2 t2 "b.pdf" hello s1).2 in
  (upload_pdf no_fault t3 t3 "c.pdf" hello s2).2.

End notions.

(* ===================================================================== *)
(** * Notions for the behaviour of the endpoints *)
(* ===================================================================== *)

Module shapes.
Import py main.

(** The path under which [upload_pdf] stores a file named [name] at the
    clock reading [now]. *)
Definition stored_filename (now : datetime) (name : string) : string :=
  strftime now +:+ "_" +:+ name.

Definition stored_path (now : datetime) (name : string) : string :=
  UPLOAD_DIR +:+ "/" +:+ stored_filename now name.

(** A row as [upload_pdf] writes it. *)
Definition row_shape (d : models.Document) : Prop :=
  (∃ now, models.filename d = stored_filename now (models.original_filename d))
  ∧ models.file_path d = UPLOAD_DIR +:+ "/" +:+ models.filename d
  ∧ endswith (models.original_filename d) ".pdf" = true
  ∧ strip (models.text_content d) = models.text_content d.

(** The upload directory after [delete_document] has tried to remove the
    file of [document]. *)
Definition after_unlink (e : env) (document : models.Document)
    (files : gmap string pdf_processor.file) : gmap string pdf_processor.file :=
  match files !! models.file_path document with
  | Some _ =>
      match unlink_error e with
      | None => delete (models.file_path document) files
      | Some _ => files
      end
  | None => files
  end.

(** The row [test_document_insertion] inserts, with the key it receives. *)
Definition test_row (key : Z) : models.Document :=
  models.mk_Document key "test_document.pdf" "test.pdf"
    (mk_datetime 2023 1 1 0 0 0 0) "/tmp/test.pdf"
    "This is a test document content.".

End shapes.

(* ===================================================================== *)
(** * Facts about the string primitives *)
(* ===================================================================== *)

Module py_facts.
Import py notions.

Lemma app_cons x (a b : string) : String x a +:+ b = String x (a +:+ b).
Proof. reflexivity. Qed.

Lemma app_empty_l (a : string) : EmptyString +:+ a = a.
Proof. reflexivity. Qed.

Lemma app_assoc (a b c : string) : (a +:+ b) +:+ c = a +:+ b +:+ c.
Proof.
  induction a as [|x a IH]; [reflexivity |]. by rewrite !app_cons, IH.
Qed.

Lemma app_empty_r (a : string) : a +:+ EmptyString = a.
Proof.
  induction a as [|x a IH]; [reflexivity |]. by rewrite app_cons, IH.
Qed.

Lemma isspace_LF : isspace LF = true.
Proof. reflexivity. Qed.

(** [rstrip] drops the head exactly when everything is white space. *)
Lemma rstrip_cons c r :
  rstrip (String c r) =
    if isspace c && negb (truthy (rstrip r)) then EmptyString
    else String c (rstrip r).
Proof. simpl. destruct (rstrip r), (isspace c); reflexivity. Qed.

Lemma lstrip_rstrip s : lstrip (rstrip s) = rstrip (lstrip s).
Proof.
  induction s as [|c r IH]; [reflexivity |].
  rewrite rstrip_cons. cbn [lstrip].
  destruct (isspace c) eqn:Hc; cbn [andb].
  - destruct (rstrip r) eqn:Hr; cbn [truthy negb].
    + by rewrite <- IH.
    + cbn [lstrip]. by rewrite Hc, <- IH.
  - cbn [lstrip]. by rewrite Hc, rstrip_cons, Hc.
Qed.

Lemma strip_alt s : strip s = lstrip (rstrip s).
Proof. unfold strip. by rewrite lstrip_rstrip. Qed.

Lemma strip_cons_space c s : isspace c = true → strip (String c s) = strip s.
Proof. intros Hc. unfold strip. simpl. by rewrite Hc. Qed.

Lemma strip_rstrip_eq a b : rstrip a = rstrip b → strip a = strip b.
Proof. intros H. by rewrite !strip_alt, H. Qed.

Lemma rstrip_app_newline s : rstrip (s +:+ newline) = rstrip s.
Proof.
  induction s as [|c r IH]; [reflexivity |].
  by rewrite app_cons, !rstrip_cons, IH.
Qed.

Lemma strip_app_newline s : strip (s +:+ newline) = strip s.
Proof. apply strip_rstrip_eq, rstrip_app_newline. Qed.

(** ** Lines *)

Lemma split_lines_cons c r :
  split_lines (String c r) =
    if Ascii.eqb c LF then EmptyString :: split_lines r
    else String c (hd EmptyString (split_lines r)) :: tl (split_lines r).
Proof. simpl. destruct (Ascii.eqb c LF), (split_lines r); reflexivity. Qed.

Lemma split_lines_hd_tl s :
  split_lines s = hd EmptyString (split_lines s) :: tl (split_lines s).
Proof.
  destruct s as [|c r]; [reflexivity |].
  rewrite split_lines_cons. by destruct (Ascii.eqb c LF).
Qed.

Lemma clean_cons q lines : clean (q :: lines) = clean [q] ++ clean lines.
Proof. unfold clean. simpl. by destruct (truthy (strip q)). Qed.

Lemma clean_head_rstrip a b lines :
  rstrip a = rstrip b → clean (a :: lines) = clean (b :: lines).
Proof.
  intros H. rewrite (clean_cons a), (clean_cons b). f_equal.
  unfold clean. simpl. rewrite (strip_rstrip_eq a b H).
  destruct (truthy (strip b)); simpl; [| done].
  by rewrite (strip_rstrip_eq a b H).
Qed.

Lemma clean_blank q lines : rstrip q = EmptyString → clean (q :: lines) = clean lines.
Proof.
  intros H. rewrite (clean_head_rstrip q EmptyString) by done. reflexivity.
Qed.

Lemma clean_split_cons_space c r :
  isspace c = true → clean (split_lines (String c r)) = clean (split_lines r).
Proof.
  intros Hc. rewrite split_lines_cons.
  destruct (Ascii.eqb c LF); [reflexivity |].
  rewrite (split_lines_hd_tl r) at 3.
  rewrite (clean_cons (String _ _)), (clean_cons (hd _ _)). f_equal.
  unfold clean. simpl. rewrite (strip_cons_space c _ Hc).
  destruct (truthy (strip _)); simpl; [| done].
  by rewrite (strip_cons_space c _ Hc).
Qed.

Lemma clean_split_lstrip s : clean (split_lines (lstrip s)) = clean (split_lines s).
Proof.
  induction s as [|c r IH]; [reflexivity |]. simpl lstrip.
  destruct (isspace c) eqn:Hc; [| reflexivity].
  by rewrite IH, clean_split_cons_space.
Qed.

(** Trailing white space only touches the end of the first line that it
    reaches, and removes blank lines after it. *)
Lemma split_rstrip s :
  rstrip (hd EmptyString (split_lines (rstrip s)))
    = rstrip (hd EmptyString (split_lines s))
  ∧ clean (tl (split_lines (rstrip s))) = clean (tl (split_lines s)).
Proof.
  induction s as [|c r [IHh IHt]]; [done |].
  assert (Hall : clean (split_lines (rstrip r)) = clean (split_lines r)).
  { rewrite (split_lines_hd_tl (rstrip r)), (split_lines_hd_tl r).
    rewrite (clean_head_rstrip _ _ _ IHh), (clean_cons _ (tl (split_lines (rstrip r)))).
    by rewrite IHt, <- clean_cons. }
  rewrite rstrip_cons, (split_lines_cons c r).
  destruct (isspace c && negb (truthy (rstrip r))) eqn:Hdrop.
  - apply andb_prop in Hdrop as [Hc Hr].
    assert (Hr' : rstrip r = EmptyString) by (by destruct (rstrip r)).
    rewrite Hr' in IHh, IHt, Hall. simpl in IHh, IHt, Hall.
    destruct (Ascii.eqb c LF); cbn [hd List.tl].
    + by split.
    + rewrite rstrip_cons, Hc, <- IHh. by split.
  - rewrite split_lines_cons.
    destruct (Ascii.eqb c LF); cbn [hd List.tl].
    + by split.
    + split; [| done]. by rewrite !rstrip_cons, IHh.
Qed.

Lemma clean_split_rstrip s : clean (split_lines (rstrip s)) = clean (split_lines s).
Proof.
  destruct (split_rstrip s) as [Hh Ht].
  rewrite (split_lines_hd_tl (rstrip s)), (split_lines_hd_tl s).
  rewrite (clean_head_rstrip _ _ _ Hh), (clean_cons _ (tl (split_lines (rstrip s)))).
  by rewrite Ht, <- clean_cons.
Qed.

(** Stripping the whole response first does not change its clean lines. *)
Lemma clean_split_strip s : clean (split_lines (strip s)) = clean (split_lines s).
Proof. unfold strip. by rewrite clean_split_rstrip, clean_split_lstrip. Qed.

(** ** [endswith] *)

Lemma endswith_spec s suffix :
  endswith s suffix = true ↔ ∃ p, s = p +:+ suffix.
Proof.
  split.
  - induction s as [|c r IH]; cbn [endswith]; intros H.
    + apply orb_prop in H as [H | H]; [| done].
      apply String.eqb_eq in H. by exists EmptyString.
    + apply orb_prop in H as [H | H].
      * apply String.eqb_eq in H. by exists EmptyString.
      * destruct (IH H) as [p ->]. by exists (String c p).
  - intros [p ->]. induction p as [|c p IH].
    + rewrite app_empty_l. destruct suffix; cbn [endswith];
        by rewrite String.eqb_refl.
    + rewrite app_cons. cbn [endswith]. by rewrite IH, orb_true_r.
Qed.

End py_facts.

(* ===================================================================== *)
(** * Text extraction *)
(* ===================================================================== *)

Module pdf_processor_facts.
Import py notions py_facts pdf_processor.

Lemma page_step_spec text p :
  page_step text p = inr (text +:+ lines (page_texts [p])).
Proof.
  destruct p; cbn; by rewrite ?app_empty_r.
Qed.

Lemma for_pages_spec pages : ∀ text,
  for_pages pages text = inr (text +:+ lines (page_texts pages)).
Proof.
  induction pages as [|p rest IH]; intros text.
  - cbn. by rewrite app_empty_r.
  - cbn [for_pages]. rewrite page_step_spec. cbn [mbind result_bind].
    rewrite IH, app_assoc. do 2 f_equal.
    unfold page_texts, extracted_pages. cbn [List.filter].
    destruct (succeeded p); cbn [List.map lines app]; [| reflexivity].
    by rewrite app_empty_r, !app_assoc.
Qed.

Lemma lines_join t texts :
  lines (t :: texts) = join newline (t :: texts) +:+ newline.
Proof.
  revert t. induction texts as [|u rest IH]; intros t.
  - cbn. by rewrite app_empty_r.
  - cbn [lines join] in *. by rewrite IH, !app_assoc.
Qed.

Lemma strip_lines texts : strip (lines texts) = strip (join newline texts).
Proof.
  destruct texts as [|t rest]; [reflexivity |].
  by rewrite lines_join, strip_app_newline.
Qed.

(** The loop never raises, whatever the pages do. *)
Lemma extract_text_readable fs path f pages :
  fs !! path = Some f →
  readable f = true →
  contents f = Pages pages →
  extract_text fs path = inr (strip (join newline (page_texts pages))).
Proof.
  intros Hf Hr Hc. unfold extract_text, PdfReader. rewrite Hf, Hr, Hc.
  cbn [negb mbind result_bind mret result_ret].
  destruct pages as [|p rest]; [reflexivity |].
  rewrite for_pages_spec.
  replace (Z.of_nat (length (p :: rest)) =? 0) with false
    by (symmetry; apply Z.eqb_neq; cbn [length]; lia).
  cbn [mbind result_bind mret result_ret try_except].
  by rewrite app_empty_l, strip_lines.
Qed.

Lemma extract_text_missing (fs : filesystem) path :
  fs !! path = None →
  extract_text fs path
    = inl (FileNotFoundError ("PDF file not found at " +:+ path)).
Proof. intros Hf. unfold extract_text. by rewrite Hf. Qed.

Lemma extract_text_unreadable fs path f :
  fs !! path = Some f →
  readable f = false →
  extract_text fs path
    = inl (Exception ("Error processing PDF: "
                      +:+ "No read permission for PDF file at " +:+ path)).
Proof. intros Hf Hr. unfold extract_text. by rewrite Hf, Hr. Qed.

Lemma extract_text_malformed fs path f msg :
  fs !! path = Some f →
  readable f = true →
  contents f = Malformed msg →
  extract_text fs path = inl (Exception ("Error processing PDF: " +:+ msg)).
Proof.
  intros Hf Hr Hc. unfold extract_text, PdfReader. by rewrite Hf, Hr, Hc.
Qed.

Lemma extracted_pages_app a b :
  extracted_pages (a ++ b) = extracted_pages a ++ extracted_pages b.
Proof. apply List.filter_app. Qed.

Lemma extracted_pages_all pages :
  Forall (λ p, succeeded p = true) pages → extracted_pages pages = pages.
Proof.
  induction 1 as [|p rest Hp _ IH]; [reflexivity |].
  unfold extracted_pages in *. cbn. by rewrite Hp, IH.
Qed.

(** C3.  On a readable PDF [extract_text] returns the texts of the pages,
    in page order, joined with a newline, and stripped; a PDF without
    pages gives the empty string, and the pages "Hello" and "World" give
    "Hello\nWorld". *)
Theorem extract_text_joins_pages fs path f pages :
  fs !! path = Some f →
  readable f = true →
  contents f = Pages pages →
  extract_text fs path = inr (strip (join newline (page_texts pages)))
  ∧ (Forall (λ p, succeeded p = true) pages →
     page_texts pages = List.map page_text pages)
  ∧ (pages = [] → extract_text fs path = inr EmptyString)
  ∧ (pages = [PageText "Hello"; PageText "World"] →
     extract_text fs path = inr ("Hello" +:+ newline +:+ "World")).
Proof.
  intros Hf Hr Hc.
  pose proof (extract_text_readable fs path f pages Hf Hr Hc) as H.
  split; [exact H |]. split; [| split].
  - intros Hall. unfold page_texts. by rewrite extracted_pages_all.
  - intros ->. exact H.
  - intros ->. exact H.
Qed.

Lemma extract_text_joins_pages_witness :
  extract_text
    {[ "uploads/hello.pdf" :=
         mk_file true (Pages [PageText "Hello"; PageText "World"]) ]}
    "uploads/hello.pdf"
  = inr ("Hello" +:+ newline +:+ "World").
Proof.
  refine (proj2 (proj2 (proj2
    (extract_text_joins_pages _ "uploads/hello.pdf"
       (mk_file true (Pages [PageText "Hello"; PageText "World"]))
       [PageText "Hello"; PageText "World"] _ _ _))) _);
    reflexivity.
Defined.

(** C4.  When exactly one page of an N-page PDF raises, [extract_text]
    still returns: the result is made of the texts of all the other
    pages, before and after the failing one, in page order; the failing
    page adds nothing; and N-1 pages are extracted. *)
Theorem one_failing_page_is_skipped fs path f before msg after :
  fs !! path = Some f →
  readable f = true →
  contents f = Pages (before ++ PageRaises msg :: after) →
  Forall (λ p, succeeded p = true) (before ++ after) →
  extract_text fs path
    = inr (strip (join newline (List.map page_text (before ++ after))))
  ∧ extracted_pages (before ++ PageRaises msg :: after) = before ++ after
  ∧ (length (extracted_pages (before ++ PageRaises msg :: after))
     = length (before ++ PageRaises msg :: after) - 1)%nat.
Proof.
  intros Hf Hr Hc Hall.
  assert (Hex : extracted_pages (before ++ PageRaises msg :: after)
                = before ++ after).
  { apply Forall_app in Hall as [Hb Ha].
    rewrite extracted_pages_app.
    change (extracted_pages (PageRaises msg :: after))
      with (extracted_pages after).
    by rewrite !extracted_pages_all. }
  split; [| split].
  - rewrite (extract_text_readable fs path f _ Hf Hr Hc).
    unfold page_texts. by rewrite Hex.
  - exact Hex.
  - rewrite Hex, !length_app. cbn [length]. lia.
Qed.

Lemma one_failing_page_is_skipped_witness :
  extract_text
    {[ "uploads/damaged.pdf" :=
         mk_file true
           (Pages [PageText "one"; PageRaises "bad stream"; PageText "three"]) ]}
    "uploads/damaged.pdf"
  = inr ("one" +:+ newline +:+ "three").
Proof.
  refine (proj1
    (one_failing_page_is_skipped _ "uploads/damaged.pdf"
       (mk_file true
          (Pages [PageText "one"; PageRaises "bad stream"; PageText "three"]))
       [PageText "one"] "bad stream" [PageText "three"] _ _ _ _));
    [reflexivity | reflexivity | reflexivity |].
  repeat constructor.
Defined.

(** C5.  A missing file raises [FileNotFoundError]; an unreadable file
    raises the generic [Exception] that wraps the message of the
    [PermissionError], the same class a malformed PDF raises. *)
Theorem extract_text_unreadable_is_generic :
  let fs : filesystem :=
    {[ "uploads/locked.pdf" := mk_file false (Pages [PageText "Hello"]);
       "uploads/broken.pdf" := mk_file true (Malformed "EOF marker not found") ]} in
  extract_text fs "uploads/absent.pdf"
    = inl (FileNotFoundError "PDF file not found at uploads/absent.pdf")
  ∧ extract_text fs "uploads/locked.pdf"
    = inl (Exception
             "Error processing PDF: No read permission for PDF file at uploads/locked.pdf")
  ∧ extract_text fs "uploads/broken.pdf"
    = inl (Exception "Error processing PDF: EOF marker not found").
Proof. repeat split; reflexivity. Qed.

End pdf_processor_facts.

(* ===================================================================== *)
(** * The question-answering engine *)
(* ===================================================================== *)

Module qa_engine_facts.
Import py notions py_facts qa_engine.

Lemma lstrip_idem s : lstrip (lstrip s) = lstrip s.
Proof.
  induction s as [|c r IH]; [reflexivity |]. cbn [lstrip].
  destruct (isspace c) eqn:Hc; [exact IH |]. cbn [lstrip]. by rewrite Hc.
Qed.

Lemma rstrip_idem s : rstrip (rstrip s) = rstrip s.
Proof.
  induction s as [|c r IH]; [reflexivity |]. rewrite rstrip_cons.
  destruct (isspace c && negb (truthy (rstrip r))) eqn:Hdrop; [reflexivity |].
  by rewrite rstrip_cons, IH, Hdrop.
Qed.

Lemma strip_idem s : strip (strip s) = strip s.
Proof.
  unfold strip at 1. rewrite <- lstrip_rstrip. unfold strip.
  by rewrite rstrip_idem, lstrip_rstrip, lstrip_idem.
Qed.

Lemma clean_trimmed lines :
  Forall (λ q, strip q = q ∧ truthy q = true) (clean lines).
Proof.
  induction lines as [|l rest IH]; [constructor |].
  rewrite clean_cons. apply Forall_app. split; [| exact IH].
  unfold clean. cbn [List.filter].
  destruct (truthy (strip l)) eqn:Hl; cbn [List.map]; [| constructor].
  repeat constructor; [apply strip_idem | exact Hl].
Qed.

Section engine.

Variable RecursiveCharacterTextSplitter :
  Z → Z → (string → Z) → string → list string.
Variable GenerativeModel : string → string → result exn string.

Let split_text := text_splitter RecursiveCharacterTextSplitter.
Let generate_content := model GenerativeModel.

Lemma get_answer_working text question :
  get_answer RecursiveCharacterTextSplitter GenerativeModel text question
  = answer_from generate_content (working_text split_text text) question.
Proof. reflexivity. Qed.

Lemma generate_questions_working text :
  generate_questions RecursiveCharacterTextSplitter GenerativeModel text
  = questions_from generate_content (working_text split_text text).
Proof. reflexivity. Qed.

End engine.

Lemma working_text_long split_text text :
  30000 < len text → working_text split_text text = first_chunks split_text text.
Proof. intros H. unfold working_text. by rewrite (proj2 (Z.ltb_lt _ _) H). Qed.

Lemma working_text_short split_text text :
  len text ≤ 30000 → working_text split_text text = text.
Proof. intros H. unfold working_text. by rewrite (proj2 (Z.ltb_ge _ _) H). Qed.

(** C2.  Above 30,000 characters both operations build their prompt from
    the first five chunks of the splitter configured with chunk size 1000
    and overlap 200, joined with a newline; up to 30,000 characters they
    build it from the text itself, and the splitter plays no part. *)
Theorem chunk_selection_threshold
    RecursiveCharacterTextSplitter GenerativeModel text question :
  let split_text := RecursiveCharacterTextSplitter 1000 200 len in
  let generate_content := GenerativeModel "gemini-1.5-flash" in
  (30000 < len text →
     get_answer RecursiveCharacterTextSplitter GenerativeModel text question
       = answer_from generate_content
           (join newline (take 5 (split_text text))) question
     ∧ generate_questions RecursiveCharacterTextSplitter GenerativeModel text
       = questions_from generate_content
           (join newline (take 5 (split_text text))))
  ∧ (len text ≤ 30000 →
     get_answer RecursiveCharacterTextSplitter GenerativeModel text question
       = answer_from generate_content text question
     ∧ generate_questions RecursiveCharacterTextSplitter GenerativeModel text
       = questions_from generate_content text
     ∧ ∀ other_splitter,
         get_answer other_splitter GenerativeModel text question
           = get_answer RecursiveCharacterTextSplitter GenerativeModel
               text question
         ∧ generate_questions other_splitter GenerativeModel text
           = generate_questions RecursiveCharacterTextSplitter GenerativeModel
               text).
Proof.
  intros split_text generate_content. split; intros H.
  - rewrite get_answer_working, generate_questions_working.
    by rewrite working_text_long.
  - rewrite get_answer_working, generate_questions_working.
    rewrite working_text_short by done. repeat split.
    + by rewrite get_answer_working, working_text_short.
    + by rewrite generate_questions_working, working_text_short.
Qed.

Lemma chunk_selection_threshold_witness :
  let splitter : Z → Z → (string → Z) → string → list string :=
    λ _ _ _, split_lines in
  let echo : string → string → result exn string := λ _ prompt, inr prompt in
  (get_answer splitter echo (letters 30001) "Why?"
     = answer_from (echo "gemini-1.5-flash")
         (join newline (take 5 (split_lines (letters 30001)))) "Why?"
   ∧ generate_questions splitter echo (letters 30001)
     = questions_from (echo "gemini-1.5-flash")
         (join newline (take 5 (split_lines (letters 30001)))))
  ∧ (get_answer splitter echo (letters 30000) "Why?"
       = answer_from (echo "gemini-1.5-flash") (letters 30000) "Why?"
     ∧ generate_questions splitter echo (letters 30000)
       = questions_from (echo "gemini-1.5-flash") (letters 30000)).
Proof.
  intros splitter echo. split.
  - apply (proj1 (chunk_selection_threshold splitter echo
                    (letters 30001) "Why?")).
    by vm_compute.
  - pose proof (proj2 (chunk_selection_threshold splitter echo
                         (letters 30000) "Why?")) as H.
    destruct H as (Ha & Hq & _); [by vm_compute |]. by split.
Defined.

(** C6.  Whatever the model answers, [generate_questions] returns the
    lines of the response, blank lines dropped, each line stripped, cut
    after the seventh: never more than seven, each non-empty and
    stripped, and all of them when there are no more than seven. *)
Theorem suggest_returns_first_seven_lines
    RecursiveCharacterTextSplitter GenerativeModel text response :
  GenerativeModel "gemini-1.5-flash"
    (questions_prompt
       (working_text (RecursiveCharacterTextSplitter 1000 200 len) text))
    = inr response →
  let all :=
    List.map strip
      (List.filter (λ q, truthy (strip q)) (split_lines response)) in
  generate_questions RecursiveCharacterTextSplitter GenerativeModel text
    = inr (take 7 all)
  ∧ (length (take 7 all) ≤ 7)%nat
  ∧ Forall (λ q, strip q = q ∧ truthy q = true) (take 7 all)
  ∧ ((length all ≤ 7)%nat →
     generate_questions RecursiveCharacterTextSplitter GenerativeModel text
       = inr all).
Proof.
  intros Hgen all.
  assert (Hq : generate_questions RecursiveCharacterTextSplitter
                 GenerativeModel text = inr (take 7 all)).
  { rewrite generate_questions_working. unfold questions_from, model.
    unfold text_splitter. rewrite Hgen.
    cbn [mbind result_bind mret result_ret try_except].
    by rewrite clean_split_strip. }
  split; [exact Hq |]. split; [| split].
  - rewrite length_take. lia.
  - apply Forall_take, clean_trimmed.
  - intros Hlen. rewrite Hq. by rewrite take_ge.
Qed.

Lemma suggest_returns_first_seven_lines_witness :
  generate_questions (λ _ _ _, split_lines) (λ _ _, inr ten_lines)
    "A short document."
  = inr ["Q1?"; "Q2?"; "Q3?"; "Q4?"; "Q5?"; "Q6?"; "Q7?"].
Proof.
  exact (proj1 (suggest_returns_first_seven_lines (λ _ _ _, split_lines)
                  (λ _ _, inr ten_lines) "A short document." ten_lines
                  eq_refl)).
Defined.

End qa_engine_facts.

(* ===================================================================== *)
(** * The endpoints *)
(* ===================================================================== *)

Module main_facts.
Import py notions py_facts main.

Lemma query_first_id db i d :
  database.query_first db i = Some d → models.id d = i.
Proof.
  unfold database.query_first. intros H.
  apply List.find_some in H as [_ H]. by apply Z.eqb_eq.
Qed.

Lemma query_first_in db i d :
  database.query_first db i = Some d → d ∈ database.documents db.
Proof.
  unfold database.query_first. intros H.
  apply List.find_some in H as [H _]. by apply list_elem_of_In.
Qed.

Lemma query_first_deleted i db :
  database.query_first (database.delete_where_id i db) i = None.
Proof.
  unfold database.query_first, database.delete_where_id. cbn.
  induction (database.documents db) as [|d rest IH]; [reflexivity |].
  cbn [List.filter]. destruct (models.id d =? i) eqn:Hd; cbn; [exact IH |].
  by rewrite Hd.
Qed.

(** ** Missing documents *)

Lemma get_document_missing doc_id st :
  database.query_first (db st) doc_id = None →
  get_document doc_id st = inl (HTTPException 404 "Document not found").
Proof. intros H. unfold get_document. by rewrite H. Qed.

Lemma delete_document_missing e document_id st :
  database.query_first (db st) document_id = None →
  delete_document e document_id st
    = (inl (HTTPException 404 "Document not found"), st).
Proof. intros H. unfold delete_document. by rewrite H. Qed.

Lemma get_suggested_questions_missing http_exception_str splitter
    generative_model document_id st :
  database.query_first (db st) document_id = None →
  get_suggested_questions http_exception_str splitter generative_model
    document_id st
    = inl (HTTPException 404 "Document not found").
Proof. intros H. unfold get_suggested_questions. by rewrite H. Qed.

(** In [ask_question] the 404 is raised inside the [try] whose handler
    catches every [Exception]: it comes out as a 500. *)
Lemma ask_question_missing http_exception_str splitter generative_model
    question st :
  database.query_first (db st) (schemas.document_id question) = None →
  ask_question http_exception_str splitter generative_model question st
    = inl (HTTPException 500 (http_exception_str 404 "Document not found")).
Proof. intros H. unfold ask_question. by rewrite H. Qed.

(** C1.  Asking about a document that is not stored, here in an empty
    database, is answered with status 500, not 404. *)
Theorem ask_question_missing_document_is_500
    http_exception_str splitter generative_model document_id text :
  let response :=
    ask_question http_exception_str splitter generative_model
      (schemas.mk_Question document_id text)
      (mk_state ∅ database.empty) in
  response
    = inl (HTTPException 500 (http_exception_str 404 "Document not found"))
  ∧ status response = 500.
Proof. by split. Qed.

(** ** Upload *)

(** C10.  A file name that does not end in the lowercase [.pdf] is
    refused with status 400, and nothing changes: no file is written and
    no row is created. *)
Theorem upload_rejects_other_extensions
    e now_name now_date file_filename file_body st :
  (¬ ∃ stem, file_filename = stem +:+ ".pdf") →
  let out := upload_pdf e now_name now_date file_filename file_body st in
  out.1 = inl (HTTPException 400 "Only PDF files are allowed")
  ∧ status out.1 = 400
  ∧ out.2 = st.
Proof.
  intros Hext out. subst out. unfold upload_pdf.
  destruct (endswith file_filename ".pdf") eqn:Hends.
  - exfalso. by apply Hext, endswith_spec.
  - done.
Qed.

Lemma upload_rejects_other_extensions_witness :
  let now := mk_datetime 2024 5 17 10 30 0 0 in
  let st := mk_state ∅ database.empty in
  upload_pdf no_fault now now "report.PDF"
    (pdf_processor.Pages [pdf_processor.PageText "Hello"]) st
  = (inl (HTTPException 400 "Only PDF files are allowed"), st).
Proof.
  intros now st.
  assert (Hext : ¬ ∃ stem, "report.PDF" = stem +:+ ".pdf").
  { intros H. apply endswith_spec in H. vm_compute in H. discriminate H. }
  pose proof (upload_rejects_other_extensions no_fault now now "report.PDF"
    (pdf_processor.Pages [pdf_processor.PageText "Hello"]) st Hext)
    as (H1 & _ & H2).
  apply injective_projections; [exact H1 | exact H2].
Defined.

(** ** Delete *)

(** C8.  Deleting a stored document succeeds whenever the database
    commits, whatever happens to the file: present or already gone,
    [unlink] raising or not.  The row is removed and [get_document] no
    longer finds it. *)
Theorem delete_survives_file_failure e document_id st document :
  database.query_first (db st) document_id = Some document →
  commit_error e = None →
  let out := delete_document e document_id st in
  out.1 = inr (schemas.DocumentDeleteResponse.mk
                 "Document deleted successfully" document_id)
  ∧ status out.1 = 200
  ∧ database.query_first (db out.2) document_id = None
  ∧ get_document document_id out.2
    = inl (HTTPException 404 "Document not found").
Proof.
  intros Hdoc Hcommit out.
  assert (Hout : out = (inr (schemas.DocumentDeleteResponse.mk
                               "Document deleted successfully" document_id),
                        mk_state
                          (match fs st !! models.file_path document with
                           | Some _ =>
                               match unlink_error e with
                               | None => delete (models.file_path document) (fs st)
                               | Some _ => fs st
                               end
                           | None => fs st
                           end)
                          (database.delete_where_id document_id (db st)))).
  { subst out. unfold delete_document, database.delete_commit.
    rewrite Hdoc, Hcommit. cbn [mret result_ret].
    rewrite (query_first_id _ _ _ Hdoc), query_first_deleted.
    reflexivity. }
  rewrite Hout. cbn [fst snd db].
  repeat split.
  - apply query_first_deleted.
  - apply get_document_missing, query_first_deleted.
Qed.

Lemma delete_survives_file_failure_witness :
  let row :=
    models.mk_Document 1 "20240517_103000_a.pdf" "a.pdf"
      (mk_datetime 2024 5 17 10 30 0 0)
      "uploads/20240517_103000_a.pdf" "Hello" in
  let st := mk_state ∅ (database.mk_session [row] 2) in
  let out := delete_document (mk_env Written (Some "Permission denied") None)
               1 st in
  status out.1 = 200
  ∧ get_document 1 out.2 = inl (HTTPException 404 "Document not found").
Proof.
  intros row st out.
  pose proof (delete_survives_file_failure
    (mk_env Written (Some "Permission denied") None) 1 st row
    eq_refl eq_refl) as (_ & H1 & _ & H2).
  split; [exact H1 | exact H2].
Defined.

(** ** Listing *)

Lemma night_reachable : reachable night.
Proof. unfold night. repeat apply reachable_upload. apply reachable_start. Qed.

(** C7, as stated, fails: the listing of a reachable state need not be
    sorted by upload time in either direction. *)
Lemma list_documents_not_sorted :
  ¬ (∀ st, reachable st →
       ∀ docs, list_documents st = inr docs →
               sorted_by_upload_time docs = true).
Proof.
  intros H. specialize (H night night_reachable _ eq_refl).
  vm_compute in H. discriminate H.
Qed.

(** *** Keys stay distinct *)

Lemma well_keyed_empty : well_keyed database.empty.
Proof. split; constructor. Qed.

Lemma well_keyed_add commit_error filename original upload_date path text
    db doc db' :
  database.add_commit commit_error filename original upload_date path text db
    = inr (doc, db') →
  well_keyed db → well_keyed db'.
Proof.
  unfold database.add_commit. destruct commit_error; [done |].
  intros [= <- <-] [Hlt Hnd]. split; cbn.
  - apply Forall_app. split.
    + eapply Forall_impl; [exact Hlt |]. cbn. intros d Hd. lia.
    + repeat constructor. cbn. lia.
  - rewrite fmap_app. apply NoDup_app. repeat split; [exact Hnd | |].
    + intros k Hk Hk'. cbn in Hk'. apply list_elem_of_singleton in Hk'.
      apply list_elem_of_fmap in Hk as (d & -> & Hd).
      rewrite Forall_forall in Hlt. specialize (Hlt d Hd). lia.
    + cbn. apply NoDup_singleton.
Qed.

Lemma well_keyed_delete_where i db :
  well_keyed db → well_keyed (database.delete_where_id i db).
Proof.
  intros [Hlt Hnd]. unfold database.delete_where_id. split; cbn.
  - rewrite Forall_forall in Hlt. apply Forall_forall. intros d Hd.
    apply Hlt. apply list_elem_of_In. apply list_elem_of_In in Hd.
    by apply List.filter_In in Hd as [Hd _].
  - induction (database.documents db) as [|d rest IH]; [constructor |].
    rewrite fmap_cons in Hnd. apply NoDup_cons in Hnd as [Hd Hrest].
    apply Forall_cons in Hlt as [_ Hlt]. cbn [List.filter].
    destruct (negb (models.id d =? i)); [| by apply IH].
    rewrite fmap_cons. apply NoDup_cons. split; [| by apply IH].
    intros Hin. apply Hd.
    apply list_elem_of_fmap in Hin as (x & Hx & Hin).
    apply list_elem_of_fmap. exists x. split; [exact Hx |].
    apply list_elem_of_In. apply list_elem_of_In in Hin.
    by apply List.filter_In in Hin as [Hin _].
Qed.

Lemma upload_pdf_well_keyed e now_name now_date file_filename file_body st :
  well_keyed (db st) →
  well_keyed (db (upload_pdf e now_name now_date file_filename file_body st).2).
Proof.
  intros Hst. unfold upload_pdf.
  destruct (negb (endswith file_filename ".pdf")); [exact Hst |].
  destruct (write e); [| exact Hst].
  destruct (pdf_processor.extract_text _ _) as [err|text]; [exact Hst |].
  cbn [mbind result_bind].
  destruct (database.add_commit _ _ _ _ _ _ _) as [err|[doc db']] eqn:Hadd;
    [exact Hst |].
  cbn [snd db]. by eapply well_keyed_add.
Qed.

Lemma delete_document_well_keyed e document_id st :
  well_keyed (db st) →
  well_keyed (db (delete_document e document_id st).2).
Proof.
  intros Hst. unfold delete_document.
  destruct (database.query_first (db st) document_id); [| exact Hst].
  unfold database.delete_commit.
  destruct (commit_error e); [exact Hst |]. cbn [mret result_ret snd db].
  destruct (database.query_first _ _);
    repeat apply well_keyed_delete_where; exact Hst.
Qed.

Lemma reachable_well_keyed st : reachable st → well_keyed (db st).
Proof.
  induction 1 as [| e n1 n2 name body st _ IH | e i st _ IH].
  - apply well_keyed_empty.
  - by apply upload_pdf_well_keyed.
  - by apply delete_document_well_keyed.
Qed.

Lemma query_first_own_key db d :
  well_keyed db →
  d ∈ database.documents db →
  database.query_first db (models.id d) = Some d.
Proof.
  intros [_ Hnd]. unfold database.query_first.
  induction (database.documents db) as [|x rest IH]; intros Hd.
  - by apply elem_of_nil in Hd.
  - rewrite fmap_cons in Hnd. apply NoDup_cons in Hnd as [Hx Hrest].
    cbn [List.find]. destruct (models.id x =? models.id d) eqn:Hk.
    + apply Z.eqb_eq in Hk. apply elem_of_cons in Hd as [-> | Hd]; [done |].
      exfalso. apply Hx. rewrite Hk. by apply list_elem_of_fmap_2.
    + apply elem_of_cons in Hd as [-> | Hd].
      * by rewrite Z.eqb_refl in Hk.
      * by apply IH.
Qed.

(** C7, amended.  In every state the service reaches, the listing is the
    whole table, in the order in which the database yields it: no document
    twice, and a document is listed exactly when [get_document] finds it
    under its key. *)
Theorem list_documents_returns_table st :
  reachable st →
  list_documents st = inr (database.query_all (db st))
  ∧ NoDup (database.query_all (db st))
  ∧ ∀ document,
      document ∈ database.query_all (db st)
      ↔ get_document (models.id document) st = inr document.
Proof.
  intros Hst. pose proof (reachable_well_keyed st Hst) as Hkeys.
  split; [reflexivity |]. split.
  - destruct Hkeys as [_ Hnd]. by eapply NoDup_fmap_1.
  - intros document. unfold get_document, database.query_all. split.
    + intros Hin. by rewrite (query_first_own_key _ _ Hkeys Hin).
    + destruct (database.query_first _ _) as [d|] eqn:Hd; [| done].
      intros [= <-]. by eapply query_first_in.
Qed.

Lemma list_documents_returns_table_witness :
  ∃ a b c,
    list_documents night = inr [a; b; c]
    ∧ models.original_filename a = "a.pdf"
    ∧ models.original_filename b = "b.pdf"
    ∧ models.original_filename c = "c.pdf"
    ∧ get_document (models.id b) night = inr b.
Proof.
  destruct (list_documents_returns_table night night_reachable)
    as (Hlist & _ & Hget).
  vm_compute in Hlist.
  eexists _, _, _. split; [exact Hlist |].
  do 3 (split; [reflexivity |]).
  apply Hget, list_elem_of_In. vm_compute. right. left. reflexivity.
Defined.

End main_facts.

(* ===================================================================== *)
(** * More on text extraction *)
(* ===================================================================== *)

Module pdf_processor_outcomes.
Import py notions py_facts qa_engine_facts pdf_processor pdf_processor_facts.

(** Whatever [extract_text] returns has no white space at either end. *)
Lemma extract_text_stripped (fs : filesystem) path text :
  extract_text fs path = inr text → strip text = text.
Proof.
  destruct (fs !! path) as [f|] eqn:Hf.
  - destruct (readable f) eqn:Hr.
    + destruct (contents f) as [msg|pages] eqn:Hc.
      * by rewrite (extract_text_malformed fs path f msg Hf Hr Hc).
      * rewrite (extract_text_readable fs path f pages Hf Hr Hc).
        intros [= <-]. apply strip_idem.
    + by rewrite (extract_text_unreadable fs path f Hf Hr).
  - by rewrite (extract_text_missing fs path Hf).
Qed.

(** X14.  The ways [extract_text] can end, for every file system and path: text
    without white space at its ends for a file that exists;
    [FileNotFoundError] exactly for a missing file; never
    [PermissionError]; every other failure is an [Exception] whose message
    begins with "Error processing PDF: ". *)
Theorem extract_text_outcomes (fs : filesystem) path :
  match extract_text fs path with
  | inr text => strip text = text ∧ is_Some (fs !! path)
  | inl (FileNotFoundError msg) =>
      fs !! path = None ∧ msg = "PDF file not found at " +:+ path
  | inl (PermissionError _) => False
  | inl (Exception msg) =>
      is_Some (fs !! path) ∧ ∃ cause, msg = "Error processing PDF: " +:+ cause
  end.
Proof.
  destruct (fs !! path) as [f|] eqn:Hf.
  - destruct (readable f) eqn:Hr.
    + destruct (contents f) as [msg|pages] eqn:Hc.
      * rewrite (extract_text_malformed fs path f msg Hf Hr Hc). eauto.
      * rewrite (extract_text_readable fs path f pages Hf Hr Hc).
        split; [apply strip_idem | eauto].
    + rewrite (extract_text_unreadable fs path f Hf Hr). eauto.
  - by rewrite (extract_text_missing fs path Hf).
Qed.

End pdf_processor_outcomes.

(* ===================================================================== *)
(** * The earlier engine *)
(* ===================================================================== *)

Module old_facts.
Import py notions py_facts qa_engine_facts.

Lemma old_get_answer_working splitter generative_model text question :
  old.get_answer splitter generative_model text question
  = answer_from (generative_model "gemini-pro")
      (if 30000 <? len text
       then join newline (take 3 (splitter 1000 200 len text))
       else text)
      question.
Proof. reflexivity. Qed.

(** X15.  The earlier engine builds its prompt from the first three chunks above
    30,000 characters.  It answers as the current engine does, run with
    the model "gemini-pro", whenever the text has at most 30,000 characters
    or the splitter yields at most three chunks. *)
Theorem old_get_answer_three_chunks splitter generative_model text question :
  (30000 < len text →
     old.get_answer splitter generative_model text question
     = answer_from (generative_model "gemini-pro")
         (join newline (take 3 (splitter 1000 200 len text))) question)
  ∧ (len text ≤ 30000 ∨ (length (splitter 1000%Z 200%Z len text) ≤ 3)%nat →
     old.get_answer splitter generative_model text question
     = qa_engine.get_answer splitter (λ _, generative_model "gemini-pro")
         text question).
Proof.
  rewrite old_get_answer_working, get_answer_working.
  unfold working_text, first_chunks, qa_engine.text_splitter, qa_engine.model.
  split.
  - intros H. by rewrite (proj2 (Z.ltb_lt _ _) H).
  - intros [H | H].
    + by rewrite (proj2 (Z.ltb_ge _ _) H).
    + destruct (30000 <? len text); [| reflexivity].
      rewrite !take_ge by lia. reflexivity.
Qed.

Lemma old_get_answer_three_chunks_witness :
  let splitter : Z → Z → (string → Z) → string → list string :=
    λ _ _ _ text, [text; "second"; "third"; "fourth"] in
  let echo : string → string → result exn string :=
    λ name prompt, inr (name +:+ ": " +:+ prompt) in
  old.get_answer splitter echo (letters 30001) "Why?"
    = answer_from (echo "gemini-pro")
        (letters 30001 +:+ newline +:+ "second" +:+ newline +:+ "third")
        "Why?"
  ∧ old.get_answer splitter echo "Short text." "Why?"
    = qa_engine.get_answer splitter (λ _, echo "gemini-pro")
        "Short text." "Why?".
Proof.
  intros splitter echo. split.
  - apply (proj1 (old_get_answer_three_chunks splitter echo
                    (letters 30001) "Why?")).
    by vm_compute.
  - apply (proj2 (old_get_answer_three_chunks splitter echo
                    "Short text." "Why?")).
    left. by vm_compute.
Defined.

End old_facts.

(* ===================================================================== *)
(** * More on the endpoints *)
(* ===================================================================== *)

Module main_outcomes.
Import py notions shapes py_facts pdf_processor_facts qa_engine_facts.
Import pdf_processor_outcomes main_facts main.

(** ** Queries on the table *)

Lemma find_app_Some {A} (P : A → bool) l k d :
  List.find P l = Some d → List.find P (l ++ k) = Some d.
Proof.
  induction l as [|x l IH]; [done |]. cbn. by destruct (P x).
Qed.

Lemma find_app_None {A} (P : A → bool) l k :
  List.find P l = None → List.find P (l ++ k) = List.find P k.
Proof.
  induction l as [|x l IH]; [done |]. cbn. by destruct (P x).
Qed.

Lemma query_first_fresh db :
  well_keyed db → database.query_first db (database.next_id db) = None.
Proof.
  intros [Hlt _]. unfold database.query_first.
  induction (database.documents db) as [|d rest IH]; [reflexivity |].
  apply Forall_cons in Hlt as [Hd Hrest]. cbn.
  destruct (models.id d =? database.next_id db) eqn:Hk; [| by apply IH].
  apply Z.eqb_eq in Hk. lia.
Qed.

Lemma query_first_delete_other i j db :
  j ≠ i →
  database.query_first (database.delete_where_id i db) j
  = database.query_first db j.
Proof.
  intros Hne. unfold database.query_first, database.delete_where_id. cbn.
  induction (database.documents db) as [|d rest IH]; [reflexivity |].
  cbn. destruct (models.id d =? i) eqn:Hi; cbn.
  - apply Z.eqb_eq in Hi.
    destruct (models.id d =? j) eqn:Hj; [| exact IH].
    apply Z.eqb_eq in Hj. congruence.
  - by destruct (models.id d =? j).
Qed.

Lemma delete_where_id_fresh db doc :
  well_keyed db →
  models.id doc = database.next_id db →
  List.filter (λ d, negb (models.id d =? models.id doc))
    (database.documents db ++ [doc])
  = database.documents db.
Proof.
  intros [Hlt _] Hid. rewrite List.filter_app. cbn.
  rewrite Z.eqb_refl. cbn. rewrite app_nil_r.
  induction (database.documents db) as [|d rest IH]; [reflexivity |].
  apply Forall_cons in Hlt as [Hd Hrest]. cbn.
  replace (models.id d =? models.id doc) with false
    by (symmetry; apply Z.eqb_neq; lia).
  cbn. by rewrite IH.
Qed.

(** ** Upload *)

(** What [upload_pdf] does once the name is accepted, the bytes are
    written and the text is extracted. *)
Lemma upload_pdf_extracted e now_name now_date name body st text :
  endswith name ".pdf" = true →
  write e = Written →
  let path := stored_path now_name name in
  let mode := match fs st !! path with
              | Some old => pdf_processor.readable old
              | None => true
              end in
  let fs1 := <[path := pdf_processor.mk_file mode body]> (fs st) in
  pdf_processor.extract_text fs1 path = inr text →
  upload_pdf e now_name now_date name body st
  = match commit_error e with
    | Some msg => (inl (HTTPException 500 msg), mk_state fs1 (db st))
    | None =>
        let doc := models.mk_Document (database.next_id (db st))
                     (stored_filename now_name name) name now_date path text in
        (inr (schemas.DocumentCreateResponse.mk "File uploaded successfully"
                (database.next_id (db st))),
         mk_state fs1
           (database.mk_session (database.documents (db st) ++ [doc])
              (database.next_id (db st) + 1)))
    end.
Proof.
  intros Hname Hwrite path mode fs1 Htext. unfold upload_pdf.
  rewrite Hname, Hwrite. cbn [negb].
  change (UPLOAD_DIR +:+ "/" +:+ strftime now_name +:+ "_" +:+ name) with path.
  fold mode. fold fs1. rewrite Htext. unfold database.add_commit.
  cbn [mbind result_bind]. by destruct (commit_error e).
Qed.

(** The table after an upload: unchanged, or one row longer. *)
Lemma upload_pdf_table e now_name now_date name body st :
  let out := upload_pdf e now_name now_date name body st in
  (status out.1 ≠ 200 ∧ db out.2 = db st)
  ∨ (status out.1 = 200
     ∧ ∃ doc, db out.2
              = database.mk_session (database.documents (db st) ++ [doc])
                  (database.next_id (db st) + 1)).
Proof.
  cbn zeta. unfold upload_pdf.
  destruct (negb (endswith name ".pdf")); [by left |].
  destruct (write e); [| by left].
  destruct (pdf_processor.extract_text _ _) as [err|text]; [by left |].
  cbn [mbind result_bind]. unfold database.add_commit.
  destruct (commit_error e); [by left |]. right. cbn. eauto.
Qed.



(** The state a successful upload leaves. *)
Lemma upload_pdf_committed e now_name now_date name pages st :
  endswith name ".pdf" = true →
  write e = Written →
  commit_error e = None →
  (∀ old, fs st !! stored_path now_name name = Some old →
          pdf_processor.readable old = true) →
  upload_pdf e now_name now_date name (pdf_processor.Pages pages) st
  = (inr (schemas.DocumentCreateResponse.mk "File uploaded successfully"
            (database.next_id (db st))),
     mk_state
       (<[stored_path now_name name :=
            pdf_processor.mk_file true (pdf_processor.Pages pages)]> (fs st))
       (database.mk_session
          (database.documents (db st)
           ++ [models.mk_Document (database.next_id (db st))
                 (stored_filename now_name name) name now_date
                 (stored_path now_name name)
                 (strip (join newline (page_texts pages)))])
          (database.next_id (db st) + 1))).
Proof.
  intros Hname Hwrite Hcommit Hold.
  assert (Hmode : match fs st !! stored_path now_name name with
                  | Some old => pdf_processor.readable old
                  | None => true
                  end = true).
  { destruct (fs st !! stored_path now_name name) eqn:Hf; [| done].
    by apply Hold. }
  rewrite (upload_pdf_extracted e now_name now_date name _ st
             (strip (join newline (page_texts pages))) Hname Hwrite).
  - by rewrite Hcommit, Hmode.
  - rewrite Hmode.
    by apply (extract_text_readable _ _
                (pdf_processor.mk_file true (pdf_processor.Pages pages)));
      [apply lookup_insert_eq | |].
Qed.



(** X3.  Once the bytes are written the file stays at its path whatever
    happens next: also when the text cannot be extracted or the commit
    fails and the answer is 500.  No other path changes. *)
Theorem upload_pdf_leaves_file e now_name now_date name body st :
  (∃ stem, name = stem +:+ ".pdf") →
  write e = Written →
  let out := upload_pdf e now_name now_date name body st in
  ∃ mode,
    fs out.2
    = <[stored_path now_name name := pdf_processor.mk_file mode body]> (fs st).
Proof.
  intros Hname Hwrite out. subst out. apply endswith_spec in Hname.
  unfold upload_pdf. rewrite Hname, Hwrite. cbn [negb].
  eexists. by destruct (_ ≫= _) as [err|[doc db1]].
Qed.

Lemma upload_pdf_leaves_file_witness :
  let now := mk_datetime 2024 5 17 10 30 0 0 in
  let out := upload_pdf (mk_env Written None (Some "connection lost")) now now
               "a.pdf" (pdf_processor.Pages [pdf_processor.PageText "Hello"])
               (mk_state ∅ database.empty) in
  status out.1 = 500
  ∧ db out.2 = database.empty
  ∧ ∃ mode,
      fs out.2
      = {[ "uploads/20240517_103000_a.pdf" :=
             pdf_processor.mk_file mode
               (pdf_processor.Pages [pdf_processor.PageText "Hello"]) ]}.
Proof.
  intros now out. split; [reflexivity |]. split; [reflexivity |].
  destruct (upload_pdf_leaves_file
              (mk_env Written None (Some "connection lost")) now now "a.pdf"
              (pdf_processor.Pages [pdf_processor.PageText "Hello"])
              (mk_state ∅ database.empty)) as [mode Hfs].
  - by exists "a".
  - reflexivity.
  - exists mode. subst out. rewrite Hfs. apply insert_empty.
Defined.

(** X4.  A PDF none of whose pages can be extracted is stored all the same,
    with the empty string as its text. *)
Theorem upload_pdf_without_text e now_name now_date name pages st :
  well_keyed (db st) →
  (∃ stem, name = stem +:+ ".pdf") →
  write e = Written →
  commit_error e = None →
  (∀ old, fs st !! stored_path now_name name = Some old →
          pdf_processor.readable old = true) →
  Forall (λ p, succeeded p = false) pages →
  let out := upload_pdf e now_name now_date name
               (pdf_processor.Pages pages) st in
  status out.1 = 200
  ∧ ∃ doc, get_document (database.next_id (db st)) out.2 = inr doc
           ∧ models.text_content doc = EmptyString.
Proof.
  intros Hkeys Hname Hwrite Hcommit Hold Hfail out.
  apply endswith_spec in Hname. subst out.
  rewrite (upload_pdf_committed e now_name now_date name pages st
             Hname Hwrite Hcommit Hold).
  cbn [fst snd status]. split; [done |].
  eexists. split.
  - unfold get_document, database.query_first. cbn [db database.documents].
    rewrite find_app_None by apply (query_first_fresh _ Hkeys).
    cbn. by rewrite Z.eqb_refl.
  - cbn [models.text_content].
    assert (Hnone : page_texts pages = []).
    { unfold page_texts, extracted_pages.
      induction Hfail as [|p rest Hp _ IH]; [reflexivity |].
      cbn. by rewrite Hp. }
    by rewrite Hnone.
Qed.

Lemma upload_pdf_without_text_witness :
  let now := mk_datetime 2024 5 17 10 30 0 0 in
  let out := upload_pdf no_fault now now "scan.pdf"
               (pdf_processor.Pages
                  [pdf_processor.PageRaises "bad stream";
                   pdf_processor.PageRaises "bad stream"])
               (mk_state ∅ database.empty) in
  status out.1 = 200
  ∧ ∃ doc, get_document 1 out.2 = inr doc
           ∧ models.text_content doc = EmptyString.
Proof.
  intros now out.
  refine (upload_pdf_without_text no_fault now now "scan.pdf"
            [pdf_processor.PageRaises "bad stream";
             pdf_processor.PageRaises "bad stream"]
            (mk_state ∅ database.empty) _ _ _ _ _ _).
  - apply well_keyed_empty.
  - by exists "scan".
  - reflexivity.
  - reflexivity.
  - intros old H. by vm_compute in H.
  - by repeat constructor.
Defined.

(** X5.  An upload never disturbs the documents already stored: what
    [get_document] found before, it finds after. *)
Theorem upload_pdf_keeps_documents e now_name now_date name body st i d :
  get_document i st = inr d →
  get_document i (upload_pdf e now_name now_date name body st).2 = inr d.
Proof.
  unfold get_document.
  destruct (database.query_first (db st) i) as [d'|] eqn:Hd; [| done].
  intros [= ->].
  destruct (upload_pdf_table e now_name now_date name body st)
    as [[_ H] | [_ [doc H]]]; cbn zeta in H; rewrite H.
  - by rewrite Hd.
  - unfold database.query_first in *. cbn [database.documents].
    by rewrite (find_app_Some _ _ _ _ Hd).
Qed.

Lemma upload_pdf_keeps_documents_witness :
  let now := mk_datetime 2024 11 3 2 0 0 0 in
  ∃ d, get_document 2 night = inr d
       ∧ get_document 2
           (upload_pdf no_fault now now "d.pdf"
              (pdf_processor.Pages [pdf_processor.PageNone]) night).2
         = inr d.
Proof.
  intros now. eexists. split; [reflexivity |].
  apply (upload_pdf_keeps_documents no_fault now now "d.pdf"). reflexivity.
Defined.

(** ** Delete *)

Lemma delete_document_committed e i st d :
  database.query_first (db st) i = Some d →
  commit_error e = None →
  delete_document e i st
  = (inr (schemas.DocumentDeleteResponse.mk "Document deleted successfully" i),
     mk_state (after_unlink e d (fs st)) (database.delete_where_id i (db st))).
Proof.
  intros Hd Hcommit. unfold delete_document, database.delete_commit.
  rewrite Hd, Hcommit. cbn [mret result_ret].
  by rewrite (query_first_id _ _ _ Hd), query_first_deleted.
Qed.

Lemma delete_document_failed e i st d msg :
  database.query_first (db st) i = Some d →
  commit_error e = Some msg →
  delete_document e i st
  = (inl (HTTPException 500 ("Database error: " +:+ msg)),
     mk_state (after_unlink e d (fs st)) (db st)).
Proof.
  intros Hd Hcommit. unfold delete_document, database.delete_commit.
  by rewrite Hd, Hcommit.
Qed.

(** The state after any delete request: as it was, or with the file of
    the document possibly removed and the table either as it was or
    without the rows of that key. *)
Lemma delete_document_state e i st :
  (delete_document e i st).2 = st
  ∨ ∃ d, database.query_first (db st) i = Some d
         ∧ ((delete_document e i st).2
              = mk_state (after_unlink e d (fs st)) (db st)
            ∨ (delete_document e i st).2
              = mk_state (after_unlink e d (fs st))
                  (database.delete_where_id i (db st))).
Proof.
  destruct (database.query_first (db st) i) as [d|] eqn:Hd.
  - right. exists d. split; [done |].
    destruct (commit_error e) as [msg|] eqn:Hc.
    + left. by rewrite (delete_document_failed e i st d msg).
    + right. by rewrite (delete_document_committed e i st d).
  - left. by rewrite delete_document_missing.
Qed.

(** X6.  Deleting one document leaves every other document as it was. *)
Theorem delete_document_keeps_others e i j st :
  j ≠ i →
  get_document j (delete_document e i st).2 = get_document j st.
Proof.
  intros Hne.
  destruct (delete_document_state e i st) as [-> | (d & _ & [-> | ->])];
    try reflexivity.
  unfold get_document. cbn [db]. by rewrite query_first_delete_other.
Qed.

Lemma delete_document_keeps_others_witness :
  ∃ d, get_document 3 night = inr d
       ∧ get_document 3 (delete_document no_fault 2 night).2 = inr d
       ∧ get_document 2 (delete_document no_fault 2 night).2
         = inl (HTTPException 404 "Document not found").
Proof.
  eexists. split; [reflexivity |]. split; [| reflexivity].
  by rewrite (delete_document_keeps_others no_fault 2 3 night).
Defined.

(** X7.  A second delete of the same document answers 404 and changes nothing. *)
Theorem delete_document_twice e e' i st d :
  database.query_first (db st) i = Some d →
  commit_error e = None →
  let st1 := (delete_document e i st).2 in
  delete_document e' i st1
  = (inl (HTTPException 404 "Document not found"), st1).
Proof.
  intros Hd Hcommit st1. subst st1.
  rewrite (delete_document_committed e i st d Hd Hcommit). cbn [snd].
  apply delete_document_missing. cbn [db]. apply query_first_deleted.
Qed.

Lemma delete_document_twice_witness :
  let st1 := (delete_document no_fault 2 night).2 in
  delete_document no_fault 2 st1
  = (inl (HTTPException 404 "Document not found"), st1).
Proof.
  intros st1.
  by eapply (delete_document_twice no_fault no_fault 2 night).
Defined.

(** X8.  When the commit of a delete fails the answer is 500 and the row stays,
    but the file is already gone unless removing it failed too. *)
Theorem delete_document_commit_failure e i st d msg :
  database.query_first (db st) i = Some d →
  commit_error e = Some msg →
  let out := delete_document e i st in
  out.1 = inl (HTTPException 500 ("Database error: " +:+ msg))
  ∧ db out.2 = db st
  ∧ get_document i out.2 = inr d
  ∧ (unlink_error e = None → fs out.2 !! models.file_path d = None).
Proof.
  intros Hd Hcommit out. subst out.
  rewrite (delete_document_failed e i st d msg Hd Hcommit).
  cbn [fst snd db fs]. repeat split.
  - unfold get_document. cbn [db]. by rewrite Hd.
  - intros Hunlink. unfold after_unlink. rewrite Hunlink.
    destruct (fs st !! models.file_path d) eqn:Hf; [| done].
    apply lookup_delete_eq.
Qed.

Lemma delete_document_commit_failure_witness :
  let e := mk_env Written None (Some "connection lost") in
  let out := delete_document e 2 night in
  status out.1 = 500
  ∧ (∃ d, get_document 2 out.2 = inr d)
  ∧ fs out.2 !! "uploads/20241103_010010_b.pdf" = None
  ∧ is_Some (fs night !! "uploads/20241103_010010_b.pdf").
Proof.
  intros e out. subst out.
  destruct (database.query_first (db night) 2) as [d|] eqn:Hd;
    [| by vm_compute in Hd].
  destruct (delete_document_commit_failure e 2 night d "connection lost"
              Hd eq_refl) as (H1 & _ & H3 & H4).
  split; [by rewrite H1 |]. split; [by exists d |]. split.
  - vm_compute in Hd. injection Hd as <-. by apply H4.
  - eexists. reflexivity.
Defined.

(** X9.  A delete request never creates or changes a file, and leaves every
    path but the one of the deleted document as it was. *)
Theorem delete_document_other_files e i st path :
  (∀ d, database.query_first (db st) i = Some d → models.file_path d ≠ path) →
  fs (delete_document e i st).2 !! path = fs st !! path
  ∧ fs (delete_document e i st).2 ⊆ fs st.
Proof.
  intros Hpath.
  assert (Hunlink : ∀ d, models.file_path d ≠ path →
            after_unlink e d (fs st) !! path = fs st !! path).
  { intros d Hne. unfold after_unlink.
    destruct (fs st !! models.file_path d); [| done].
    destruct (unlink_error e); [done |]. by apply lookup_delete_ne. }
  assert (Hsub : ∀ d, after_unlink e d (fs st) ⊆ fs st).
  { intros d. unfold after_unlink.
    destruct (fs st !! models.file_path d); [| done].
    destruct (unlink_error e); [done |]. apply delete_subseteq. }
  destruct (delete_document_state e i st) as [-> | (d & Hd & [-> | ->])];
    cbn [fs]; auto.
Qed.

Lemma delete_document_other_files_witness :
  fs (delete_document no_fault 2 night).2 !! "uploads/20241103_015930_a.pdf"
  = fs night !! "uploads/20241103_015930_a.pdf".
Proof.
  refine (proj1 (delete_document_other_files no_fault 2 night _ _)).
  intros d Hd. vm_compute in Hd. injection Hd as <-. by vm_compute.
Defined.

(** X10.  Uploading a document and then deleting it under the key the upload
    answered leaves the rows of the table as they were and no file at the
    path. *)
Theorem upload_then_delete e e' now_name now_date name pages st :
  well_keyed (db st) →
  (∃ stem, name = stem +:+ ".pdf") →
  write e = Written →
  commit_error e = None →
  (∀ old, fs st !! stored_path now_name name = Some old →
          pdf_processor.readable old = true) →
  unlink_error e' = None →
  commit_error e' = None →
  let st1 := (upload_pdf e now_name now_date name
                (pdf_processor.Pages pages) st).2 in
  let out := delete_document e' (database.next_id (db st)) st1 in
  status out.1 = 200
  ∧ database.documents (db out.2) = database.documents (db st)
  ∧ fs out.2 = delete (stored_path now_name name) (fs st).
Proof.
  intros Hkeys Hname Hwrite Hcommit Hold Hunlink Hcommit' st1 out.
  apply endswith_spec in Hname. subst out st1.
  rewrite (upload_pdf_committed e now_name now_date name pages st
             Hname Hwrite Hcommit Hold).
  cbn [snd].
  erewrite delete_document_committed; [| | exact Hcommit'].
  2:{ unfold database.query_first. cbn [db database.documents].
      rewrite find_app_None by apply (query_first_fresh _ Hkeys).
      cbn. by rewrite Z.eqb_refl. }
  cbn [fst snd db fs status]. split; [done |]. split.
  - unfold database.delete_where_id. cbn [database.documents].
    by apply (delete_where_id_fresh (db st) (models.mk_Document _ _ _ _ _ _)).
  - unfold after_unlink. cbn [models.file_path].
    rewrite lookup_insert_eq, Hunlink. apply delete_insert_eq.
Qed.

Lemma upload_then_delete_witness :
  let now := mk_datetime 2024 11 3 2 0 0 0 in
  let st1 := (upload_pdf no_fault now now "d.pdf"
                (pdf_processor.Pages [pdf_processor.PageText "Hello"])
                night).2 in
  let out := delete_document no_fault 4 st1 in
  database.documents (db out.2) = database.documents (db night)
  ∧ fs out.2 = delete "uploads/20241103_020000_d.pdf" (fs night).
Proof.
  intros now st1 out.
  refine (proj2 (upload_then_delete no_fault no_fault now now "d.pdf"
                   [pdf_processor.PageText "Hello"] night _ _ _ _ _ _ _)).
  - apply reachable_well_keyed, night_reachable.
  - by exists "d".
  - reflexivity.
  - reflexivity.
  - intros old H. by vm_compute in H.
  - reflexivity.
  - reflexivity.
Defined.

(** ** Questions *)

(** X11.  For a stored document [ask_question] calls the model once, on the
    answer prompt built from the working text and the question: it answers
    the stripped response, or 500 with "Error getting answer: " and the
    message of the model's error. *)
Theorem ask_question_outcome http_exception_str splitter generative_model
    question st d :
  database.query_first (db st) (schemas.document_id question) = Some d →
  ask_question http_exception_str splitter generative_model question st
  = match
      generative_model "gemini-1.5-flash"
        (qa_engine.answer_prompt
           (working_text (splitter 1000 200 len) (models.text_content d))
           (schemas.question question))
    with
    | inr response => inr (schemas.mk_Answer (strip response))
    | inl e =>
        inl (HTTPException 500 ("Error getting answer: " +:+ py.str e))
    end.
Proof.
  intros Hd. unfold ask_question. rewrite Hd, get_answer_working.
  unfold answer_from, qa_engine.model, qa_engine.text_splitter.
  by destruct (generative_model _ _).
Qed.

Lemma ask_question_outcome_witness :
  let st := mk_state ∅
              (database.mk_session
                 [models.mk_Document 1 "20240517_103000_a.pdf" "a.pdf"
                    (mk_datetime 2024 5 17 10 30 0 0)
                    "uploads/20240517_103000_a.pdf" "Hello"] 2) in
  ask_question (λ _ detail, detail) (λ _ _ _, split_lines)
    (λ _ _, inl (Exception "quota exceeded"))
    (schemas.mk_Question 1 "Why?") st
  = inl (HTTPException 500 "Error getting answer: quota exceeded").
Proof.
  intros st.
  exact (ask_question_outcome (λ _ detail, detail) (λ _ _ _, split_lines)
           (λ _ _, inl (Exception "quota exceeded"))
           (schemas.mk_Question 1 "Why?") st _ eq_refl).
Defined.

(** X12.  For a stored document [get_suggested_questions] answers the first
    seven non-blank stripped lines of the model's response; when the model
    raises it answers 500, and the detail carries the prefix
    "Error generating questions: " twice, once from the engine and once
    from the endpoint. *)
Theorem get_suggested_questions_outcome http_exception_str splitter
    generative_model document_id st d :
  database.query_first (db st) document_id = Some d →
  get_suggested_questions http_exception_str splitter generative_model
    document_id st
  = match
      generative_model "gemini-1.5-flash"
        (qa_engine.questions_prompt
           (working_text (splitter 1000 200 len) (models.text_content d)))
    with
    | inr response =>
        inr (schemas.mk_SuggestedQuestions
               (take 7 (clean (split_lines response))))
    | inl e =>
        inl (HTTPException 500
               ("Error generating questions: "
                +:+ "Error generating questions: " +:+ py.str e))
    end.
Proof.
  intros Hd. unfold get_suggested_questions.
  rewrite Hd, generate_questions_working.
  unfold questions_from, qa_engine.model, qa_engine.text_splitter.
  destruct (generative_model _ _) as [e|response]; [reflexivity |].
  cbn. by rewrite clean_split_strip.
Qed.

Lemma get_suggested_questions_outcome_witness :
  let st := mk_state ∅
              (database.mk_session
                 [models.mk_Document 1 "20240517_103000_a.pdf" "a.pdf"
                    (mk_datetime 2024 5 17 10 30 0 0)
                    "uploads/20240517_103000_a.pdf" "Hello"] 2) in
  get_suggested_questions (λ _ detail, detail) (λ _ _ _, split_lines)
    (λ _ _, inl (Exception "quota exceeded")) 1 st
  = inl (HTTPException 500
           "Error generating questions: Error generating questions: quota exceeded").
Proof.
  intros st.
  exact (get_suggested_questions_outcome (λ _ detail, detail)
           (λ _ _ _, split_lines) (λ _ _, inl (Exception "quota exceeded"))
           1 st _ eq_refl).
Defined.

(** ** What every stored row looks like *)

Lemma upload_pdf_rows_shape e now_name now_date name body st :
  Forall row_shape (database.documents (db st)) →
  Forall row_shape
    (database.documents
       (db (upload_pdf e now_name now_date name body st).2)).
Proof.
  intros Hst. unfold upload_pdf.
  destruct (endswith name ".pdf") eqn:Hname; cbn [negb]; [| exact Hst].
  destruct (write e); [| exact Hst].
  destruct (pdf_processor.extract_text _ _) as [err|text] eqn:Htext;
    [exact Hst |].
  cbn [mbind result_bind]. unfold database.add_commit.
  destruct (commit_error e); [exact Hst |].
  cbn. apply Forall_app. split; [exact Hst |].
  repeat constructor; cbn.
  - by exists now_name.
  - exact Hname.
  - by eapply extract_text_stripped.
Qed.

Lemma delete_document_rows_shape e i st :
  Forall row_shape (database.documents (db st)) →
  Forall row_shape (database.documents (db (delete_document e i st).2)).
Proof.
  intros Hst.
  destruct (delete_document_state e i st) as [-> | (d & _ & [-> | ->])];
    try exact Hst.
  cbn. rewrite Forall_forall in Hst. apply Forall_forall. intros x Hx.
  apply Hst, list_elem_of_In. apply list_elem_of_In in Hx.
  by apply List.filter_In in Hx as [Hx _].
Qed.

(** X13.  In every state the service reaches, each stored row has an original
    name ending in [.pdf], a stored name that is a timestamp, an underscore
    and the original name, a path that is the stored name under
    [uploads/], and a text without white space at its ends. *)
Theorem reachable_rows_shape st :
  reachable st → Forall row_shape (database.documents (db st)).
Proof.
  induction 1 as [| e n1 n2 name body st _ IH | e i st _ IH].
  - constructor.
  - by apply upload_pdf_rows_shape.
  - by apply delete_document_rows_shape.
Qed.

Lemma reachable_rows_shape_witness :
  ∃ d, get_document 2 night = inr d
       ∧ models.file_path d = "uploads/" +:+ models.filename d
       ∧ endswith (models.original_filename d) ".pdf" = true.
Proof.
  pose proof (reachable_rows_shape night night_reachable) as Hall.
  rewrite Forall_forall in Hall.
  destruct (database.query_first (db night) 2) as [d|] eqn:Hq;
    [| by vm_compute in Hq].
  exists d. split; [unfold get_document; by rewrite Hq |].
  destruct (Hall d) as (_ & Hpath & Hname & _); [| by split].
  by eapply query_first_in.
Defined.

End main_outcomes.

(* ===================================================================== *)
(** * The insertion test of fix_db.py *)
(* ===================================================================== *)

Module fix_db_facts.
Import py notions shapes main_facts main_outcomes.

(** X16.  On a table with distinct keys and without database errors the test
    succeeds and leaves the rows of the table as they were: the test row
    is inserted under the next key and deleted again. *)
Theorem test_document_insertion_restores db :
  well_keyed db →
  let out := fix_db.test_document_insertion None None db in
  out.1 = true
  ∧ database.documents out.2 = database.documents db
  ∧ database.next_id out.2 = database.next_id db + 1.
Proof.
  intros Hkeys out. subst out.
  unfold fix_db.test_document_insertion, database.add_commit.
  cbn [mret result_ret models.id].
  unfold database.query_first. cbn [database.documents].
  rewrite find_app_None by apply (query_first_fresh _ Hkeys).
  cbn [List.find models.id]. rewrite Z.eqb_refl.
  unfold database.delete_commit, database.delete_where_id.
  cbn [mret result_ret fst snd database.documents database.next_id models.id].
  split; [done |]. split; [| done].
  by apply (delete_where_id_fresh db (test_row (database.next_id db))).
Qed.

Lemma test_document_insertion_restores_witness :
  let out := fix_db.test_document_insertion None None (main.db night) in
  out.1 = true
  ∧ database.documents out.2 = database.documents (main.db night).
Proof.
  intros out.
  destruct (test_document_insertion_restores (main.db night)
              (reachable_well_keyed night night_reachable)) as (H1 & H2 & _).
  by split.
Defined.



End fix_db_facts.
